(** * liblights/lights.c : the TI OMAP lights module

    A shallow embedding of [src/liblights/lights.c] and the properties of
    its six per-light operations, of the two colour helpers and of the
    open/close life cycle of a light device.

    - C [int] and [unsigned int] are 32 bits wide and are modelled as [Z];
      [int] arithmetic has its wrap-around written out ([to_int]).
    - The functions that touch the outside world run in a state monad [M]
      over a [world]: [errno], the static [already_warned] of [write_int],
      the one-shot guard [g_init], the mutex [g_lock], the heap of light
      devices, and the trace of what the module did.
    - The kernel is an arbitrary oracle [kernel] that answers every
      [open], [write] and [close] from the trace so far.
    - The model is sequential: one caller thread. *)

From stdpp Require Import base numbers strings pretty list gmap.

Local Open Scope Z_scope.

(** ** C integers *)

Module CInt.

Definition to_int (z : Z) : Z := (z + 2 ^ 31) mod 2 ^ 32 - 2 ^ 31.

Definition in_int (z : Z) : Prop := - 2 ^ 31 <= z < 2 ^ 31.

(** [a + b], [a * b] and [- a] on [int]. *)
Definition add (a b : Z) : Z := to_int (a + b).
Definition mul (a b : Z) : Z := to_int (a * b).
Definition neg (a : Z) : Z := to_int (- a).

(** A C condition: non-zero is true. *)
Definition truthy (z : Z) : bool := negb (z =? 0).

End CInt.

Import CInt.

(** ** <hardware/lights.h> and <hardware/hardware.h> *)

(** Modelled from the spec: [struct light_state_t] of <hardware/lights.h>,
    which is not in src/. The spec's Light State: a 32-bit ARGB colour, a
    flash mode, the flash-on and flash-off durations in milliseconds and a
    brightness mode. [color] is an [unsigned int], the other fields are
    [int]. The properties below hold for every [Z] in the fields, so for
    every 32-bit value. *)
Record light_state_t := LightState {
  color : Z;
  flashMode : Z;
  flashOnMS : Z;
  flashOffMS : Z;
  brightnessMode : Z;
}.

(** Modelled from the spec: the flash modes of <hardware/lights.h>, which is
    not in src/: the enum NONE, TIMED, HARDWARE, numbered in that order. *)
Definition LIGHT_FLASH_NONE : Z := 0.
Definition LIGHT_FLASH_TIMED : Z := 1.
Definition LIGHT_FLASH_HARDWARE : Z := 2.

(** Modelled from the spec: the six light identifiers of
    <hardware/lights.h>, which is not in src/. *)
Definition LIGHT_ID_BACKLIGHT : string := "backlight".
Definition LIGHT_ID_KEYBOARD : string := "keyboard".
Definition LIGHT_ID_BUTTONS : string := "buttons".
Definition LIGHT_ID_BATTERY : string := "battery".
Definition LIGHT_ID_NOTIFICATIONS : string := "notifications".
Definition LIGHT_ID_ATTENTION : string := "attention".

(** <errno.h>: "invalid argument". *)
Definition EINVAL : Z := 22.
Definition EACCES : Z := 13.

(** ** The control files (lines 39-65) *)

Definition LCD_FILE : string := "/sys/class/leds/lcd-backlight/brightness".
Definition KEYBOARD_FILE : string := "/sys/class/leds/keyboard-backlight/brightness".
Definition CHARGING_LED_FILE : string := "/sys/class/leds/battery-led/brightness".
Definition RED_LED_FILE : string := "/sys/class/leds/red/brightness".
Definition RED_DELAY_ON_FILE : string := "/sys/class/leds/red/delay_on".
Definition RED_DELAY_OFF_FILE : string := "/sys/class/leds/red/delay_off".
Definition GREEN_LED_FILE : string := "/sys/class/leds/green/brightness".
Definition GREEN_DELAY_ON_FILE : string := "/sys/class/leds/green/delay_on".
Definition GREEN_DELAY_OFF_FILE : string := "/sys/class/leds/green/delay_off".
Definition BLUE_LED_FILE : string := "/sys/class/leds/blue/brightness".
Definition BLUE_DELAY_ON_FILE : string := "/sys/class/leds/blue/delay_on".
Definition BLUE_DELAY_OFF_FILE : string := "/sys/class/leds/blue/delay_off".

(** ** Function pointers and the device structure *)

(** The address of one of the six [set_light_*] functions. *)
Inductive set_light_fn :=
| fn_set_light_backlight
| fn_set_light_keyboard
| fn_set_light_buttons
| fn_set_light_battery
| fn_set_light_notification
| fn_set_light_attention.

Inductive close_fn := fn_close_lights.

#[export] Instance set_light_fn_eq_dec : EqDecision set_light_fn.
Proof. solve_decision. Defined.

(** A non-null address; a nullable pointer is an [option loc]. *)
Definition loc := positive.

(** [struct hw_device_t] and [struct light_device_t], as far as
    [open_lights] fills them in. A null function pointer is [None]. *)
Record hw_device_t := HwDevice {
  tag : Z;
  version : Z;
  module : option loc;
  close : option close_fn;
}.

Record light_device_t := LightDevice {
  common : hw_device_t;
  set_light : option set_light_fn;
}.

(** What [memset(dev, 0, sizeof(dev))] leaves. *)
Definition zeroed_device : light_device_t :=
  LightDevice (HwDevice 0 0 None None) None.

(** ** The world *)

(** One entry per thing the module does to the outside: taking and
    releasing [g_lock], and every call of [write_int] with the path, the
    value and the status the call returned. *)
Inductive event :=
| EvLock
| EvUnlock
| EvWriteInt (path : string) (value : Z) (status : Z).

(** The answer of a system call: a non-negative result, or -1 with [errno]
    set. *)
Inductive sysret :=
| SysOk (v : nat)
| SysErr (e : Z).

Record kernel := Kernel {
  k_open : list event -> string -> sysret;
  k_write : list event -> Z -> string -> Z -> sysret;
  k_close : list event -> Z -> sysret;
}.

Record world := World {
  errno : Z;
  already_warned : Z;
  g_init : bool;
  g_lock : bool;
  heap : gmap loc light_device_t;
  log : list event;
}.

Definition set_errno (e : Z) (w : world) : world :=
  World e (already_warned w) (g_init w) (g_lock w) (heap w) (log w).
Definition set_already_warned (b : Z) (w : world) : world :=
  World (errno w) b (g_init w) (g_lock w) (heap w) (log w).
Definition set_g_init (b : bool) (w : world) : world :=
  World (errno w) (already_warned w) b (g_lock w) (heap w) (log w).
Definition set_g_lock (b : bool) (w : world) : world :=
  World (errno w) (already_warned w) (g_init w) b (heap w) (log w).
Definition set_heap (h : gmap loc light_device_t) (w : world) : world :=
  World (errno w) (already_warned w) (g_init w) (g_lock w) h (log w).
Definition add_event (e : event) (w : world) : world :=
  World (errno w) (already_warned w) (g_init w) (g_lock w) (heap w) (log w ++ [e]).

(** A process that has just loaded the module. *)
Definition initial_world : world := World 0 0 false false ∅ [].

(** ** The monad *)

Definition M (A : Type) : Type := world -> A * world.

#[export] Instance M_ret : MRet M := fun A (a : A) w => (a, w).
#[export] Instance M_bind : MBind M :=
  fun A B (k : A -> M B) (c : M A) w => let (a, w') := c w in k a w'.

Definition gets {A} (f : world -> A) : M A := fun w => (f w, w).
Definition modify (f : world -> world) : M unit := fun w => (tt, f w).

(** ** Primitives: errno, the mutex, the heap, the system calls *)

Section Lights.

(** The kernel behind the control files, and the device tag of
    <hardware/hardware.h> (not in src/; its value plays no role). *)
Variable K : kernel.
Variable HARDWARE_DEVICE_TAG : Z.

(** What a block fresh from [malloc] holds before it is written. *)
Variable uninitialised : light_device_t.

Definition pthread_mutex_init : M unit := modify (set_g_lock false).

(** One caller thread: the mutex is free whenever an operation starts,
    so taking it never blocks. *)
Definition pthread_mutex_lock : M unit :=
  modify (fun w => add_event EvLock (set_g_lock true w)).
Definition pthread_mutex_unlock : M unit :=
  modify (fun w => add_event EvUnlock (set_g_lock false w)).

Definition pthread_once (init_routine : M unit) : M unit :=
  ran ← gets g_init;
  if (ran : bool) then mret tt
  else init_routine;; modify (set_g_init true).

Definition sysret_value (r : sysret) : M Z :=
  match r with
  | SysOk v => mret (Z.of_nat v)
  | SysErr e => modify (set_errno e);; mret (-1)
  end.

Definition sys_open (path : string) : M Z :=
  l ← gets log; sysret_value (k_open K l path).
Definition sys_write (fd : Z) (buffer : string) (count : Z) : M Z :=
  l ← gets log; sysret_value (k_write K l fd buffer count).
Definition sys_close (fd : Z) : M Z :=
  l ← gets log; sysret_value (k_close K l fd).

(** [sprintf(buffer, "%d\n", value)]: decimal digits, a minus sign for
    a negative value, then a newline. *)
Definition sprintf_d_nl (value : Z) : string :=
  pretty value +:+ String (Ascii.ascii_of_nat 10) EmptyString.

(** ** lights.c *)

(** lines 68-72 *)
Definition init_globals : M unit := pthread_mutex_init.

(** lines 74-93, before the call is entered in the trace *)
Definition write_int_body (path : string) (value : Z) : M Z :=
  fd ← sys_open path;
  if 0 <=? fd then
    let buffer := sprintf_d_nl value in
    let bytes := Z.of_nat (String.length buffer) in
    amt ← sys_write fd buffer bytes;
    sys_close fd;;
    e ← gets errno;
    mret (if amt =? -1 then neg e else 0)
  else
    warned ← gets already_warned;
    (if warned =? 0 then modify (set_already_warned 1) else mret tt);;
    e ← gets errno;
    mret (neg e).

Definition write_int (path : string) (value : Z) : M Z :=
  r ← write_int_body path value;
  modify (add_event (EvWriteInt path value r));;
  mret r.

(** lines 95-99; [unsigned & int] is unsigned, returned as [int] *)
Definition is_lit (state : light_state_t) : Z :=
  to_int (Z.land (color state) 0x00ffffff).

(** lines 101-107 *)
Definition rgb_to_brightness (state : light_state_t) : Z :=
  let color := to_int (Z.land (color state) 0x00ffffff) in
  Z.shiftr
    (add (add (mul 77 (Z.land (Z.shiftr color 16) 0x00ff))
              (mul 150 (Z.land (Z.shiftr color 8) 0x00ff)))
         (mul 29 (Z.land color 0x00ff)))
    8.

(** lines 109-121 *)
Definition set_light_backlight (dev : option loc) (state : light_state_t) : M Z :=
  let brightness := rgb_to_brightness state in
  pthread_mutex_lock;;
  err ← write_int LCD_FILE brightness;
  pthread_mutex_unlock;;
  mret err.

(** lines 123-128 *)
Definition set_light_keyboard (dev : option loc) (state : light_state_t) : M Z :=
  mret 0.

(** lines 130-143 *)
Definition set_light_buttons (dev : option loc) (state : light_state_t) : M Z :=
  let on := is_lit state in
  pthread_mutex_lock;;
  err ← write_int KEYBOARD_FILE (if truthy on then 255 else 0);
  pthread_mutex_unlock;;
  mret err.

(** lines 145-171 *)
Definition set_light_battery (dev : option loc) (state : light_state_t) : M Z :=
  let '(onMS, offMS) :=
    if (flashMode state =? LIGHT_FLASH_HARDWARE)
       || (flashMode state =? LIGHT_FLASH_TIMED)
    then (flashOnMS state, flashOffMS state)
    else (0, 0) in
  let colorRGB := color state in
  err ← write_int CHARGING_LED_FILE (if truthy colorRGB then 255 else 0);
  mret err.

(** lines 173-223 *)
Definition set_light_notification (dev : option loc) (state : light_state_t) : M Z :=
  let '(onMS, offMS) :=
    if (flashMode state =? LIGHT_FLASH_HARDWARE)
       || (flashMode state =? LIGHT_FLASH_TIMED)
    then (flashOnMS state, flashOffMS state)
    else (0, 0) in
  let colorRGB := color state in
  let red := Z.land (Z.shiftr colorRGB 16) 0xFF in
  let green := Z.land (Z.shiftr colorRGB 8) 0xFF in
  let blue := Z.land colorRGB 0xFF in
  err ← write_int RED_LED_FILE red;
  err ← write_int GREEN_LED_FILE green;
  err ← write_int BLUE_LED_FILE blue;
  (if (0 <? onMS) && (0 <? offMS) then
     write_int RED_DELAY_ON_FILE onMS;;
     write_int RED_DELAY_OFF_FILE offMS;;
     write_int GREEN_DELAY_ON_FILE onMS;;
     write_int GREEN_DELAY_OFF_FILE offMS;;
     write_int BLUE_DELAY_ON_FILE onMS;;
     write_int BLUE_DELAY_OFF_FILE offMS
   else
     write_int RED_DELAY_ON_FILE 0;;
     write_int RED_DELAY_OFF_FILE 0;;
     write_int GREEN_DELAY_ON_FILE 0;;
     write_int GREEN_DELAY_OFF_FILE 0;;
     write_int BLUE_DELAY_ON_FILE 0;;
     write_int BLUE_DELAY_OFF_FILE 0);;
  mret err.

(** lines 225-276 *)
Definition set_light_attention (dev : option loc) (state : light_state_t) : M Z :=
  let '(onMS, offMS) :=
    if (flashMode state =? LIGHT_FLASH_HARDWARE)
       || (flashMode state =? LIGHT_FLASH_TIMED)
    then (flashOnMS state, flashOffMS state)
    else (0, 0) in
  let colorRGB := color state in
  let red := Z.land (Z.shiftr colorRGB 16) 0xFF in
  let green := Z.land (Z.shiftr colorRGB 8) 0xFF in
  let blue := Z.land colorRGB 0xFF in
  err ← write_int RED_LED_FILE red;
  err ← write_int GREEN_LED_FILE green;
  err ← write_int BLUE_LED_FILE blue;
  (if (0 <? onMS) && (0 <? offMS) then
     write_int RED_DELAY_ON_FILE onMS;;
     write_int RED_DELAY_OFF_FILE offMS;;
     write_int GREEN_DELAY_ON_FILE onMS;;
     write_int GREEN_DELAY_OFF_FILE offMS;;
     write_int BLUE_DELAY_ON_FILE onMS;;
     write_int BLUE_DELAY_OFF_FILE offMS
   else
     write_int RED_DELAY_ON_FILE 0;;
     write_int RED_DELAY_OFF_FILE 0;;
     write_int GREEN_DELAY_ON_FILE 0;;
     write_int GREEN_DELAY_OFF_FILE 0;;
     write_int BLUE_DELAY_ON_FILE 0;;
     write_int BLUE_DELAY_OFF_FILE 0);;
  mret err.

(** The call [dev->set_light(dev, state)] through a function pointer. *)
Definition call_set_light (f : set_light_fn)
  : option loc -> light_state_t -> M Z :=
  match f with
  | fn_set_light_backlight => set_light_backlight
  | fn_set_light_keyboard => set_light_keyboard
  | fn_set_light_buttons => set_light_buttons
  | fn_set_light_battery => set_light_battery
  | fn_set_light_notification => set_light_notification
  | fn_set_light_attention => set_light_attention
  end.

(** *** The heap of devices *)

(** [malloc] of a [struct light_device_t]; it is taken to succeed, as
    the source takes it ([open_lights] does not test the result). *)
Definition malloc : M loc := fun w =>
  let p := fresh (dom (heap w)) in
  (p, set_heap (<[p := uninitialised]> (heap w)) w).

Definition memset_zero (p : loc) : M unit :=
  modify (fun w => set_heap (<[p := zeroed_device]> (heap w)) w).

(** An assignment to a member of [*p]. *)
Definition assign (p : loc) (f : light_device_t -> light_device_t) : M unit :=
  modify (fun w => set_heap (alter f p (heap w)) w).

Definition with_tag (t : Z) (d : light_device_t) : light_device_t :=
  LightDevice (HwDevice t (version (common d)) (module (common d))
                 (close (common d))) (set_light d).
Definition with_version (v : Z) (d : light_device_t) : light_device_t :=
  LightDevice (HwDevice (tag (common d)) v (module (common d))
                 (close (common d))) (set_light d).
Definition with_module (m : option loc) (d : light_device_t) : light_device_t :=
  LightDevice (HwDevice (tag (common d)) (version (common d)) m
                 (close (common d))) (set_light d).
Definition with_close (c : option close_fn) (d : light_device_t) : light_device_t :=
  LightDevice (HwDevice (tag (common d)) (version (common d))
                 (module (common d)) c) (set_light d).
Definition with_set_light (f : option set_light_fn) (d : light_device_t)
  : light_device_t :=
  LightDevice (common d) f.

(** [free(p)]: defined only on a live block ([None] is undefined
    behaviour: a dangling or already freed pointer). *)
Definition free (p : loc) (w : world) : option (unit * world) :=
  match heap w !! p with
  | Some _ => Some (tt, set_heap (delete p (heap w)) w)
  | None => None
  end.

(** lines 278-285 *)
Definition close_lights (dev : option loc) (w : world) : option (Z * world) :=
  match dev with
  | Some p =>
      match free p w with
      | Some (_, w') => Some (0, w')
      | None => None
      end
  | None => Some (0, w)
  end.

(** [strcmp]: zero exactly on equal strings. *)
Definition strcmp (a b : string) : Z :=
  match String.compare a b with
  | Eq => 0
  | Lt => -1
  | Gt => 1
  end.

(** lines 317-329: what [open_lights] does once [set_light] is chosen. *)
Definition open_lights_bind (module : option loc) (set_light : set_light_fn)
  : M (Z * option loc) :=
  pthread_once init_globals;;
  dev ← malloc;
  memset_zero dev;;
  assign dev (with_tag HARDWARE_DEVICE_TAG);;
  assign dev (with_version 0);;
  assign dev (with_module module);;
  assign dev (with_close (Some fn_close_lights));;
  assign dev (with_set_light (Some set_light));;
  mret (0, Some dev).

(** lines 289-330. The result is the returned [int] and what the call
    stored in [*device] ([None]: [*device] was not written). *)
Definition open_lights (module : option loc) (name : string)
  : M (Z * option loc) :=
  if strcmp LIGHT_ID_BACKLIGHT name =? 0 then
    open_lights_bind module fn_set_light_backlight
  else if strcmp LIGHT_ID_KEYBOARD name =? 0 then
    open_lights_bind module fn_set_light_keyboard
  else if strcmp LIGHT_ID_BUTTONS name =? 0 then
    open_lights_bind module fn_set_light_buttons
  else if strcmp LIGHT_ID_BATTERY name =? 0 then
    open_lights_bind module fn_set_light_battery
  else if strcmp LIGHT_ID_NOTIFICATIONS name =? 0 then
    open_lights_bind module fn_set_light_notification
  else if strcmp LIGHT_ID_ATTENTION name =? 0 then
    open_lights_bind module fn_set_light_attention
  else
    mret (neg EINVAL, None).

End Lights.

(** ** Reading the trace *)

(** The [write_int] calls of a trace, as (path, value), in order. *)
Fixpoint writes_of (l : list event) : list (string * Z) :=
  match l with
  | [] => []
  | EvWriteInt p v _ :: l' => (p, v) :: writes_of l'
  | _ :: l' => writes_of l'
  end.

(** The statuses of the [write_int] calls whose path satisfies [sel]. *)
Fixpoint statuses_of (sel : string -> bool) (l : list event) : list Z :=
  match l with
  | [] => []
  | EvWriteInt p _ r :: l' =>
      if sel p then r :: statuses_of sel l' else statuses_of sel l'
  | _ :: l' => statuses_of sel l'
  end.

Definition any_file (p : string) : bool := true.

Definition is_brightness_file (p : string) : bool :=
  bool_decide (p ∈ [LCD_FILE; KEYBOARD_FILE; CHARGING_LED_FILE;
                    RED_LED_FILE; GREEN_LED_FILE; BLUE_LED_FILE]).

Definition is_duration_file (p : string) : bool :=
  bool_decide (p ∈ [RED_DELAY_ON_FILE; RED_DELAY_OFF_FILE;
                    GREEN_DELAY_ON_FILE; GREEN_DELAY_OFF_FILE;
                    BLUE_DELAY_ON_FILE; BLUE_DELAY_OFF_FILE]).

(** What a run added to the trace. *)
Definition new_events (w w' : world) : list event :=
  drop (length (log w)) (log w').

(** The trace a per-light operation adds, and the status it returns. *)
Definition events_of (K : kernel) (f : set_light_fn) (dev : option loc)
    (s : light_state_t) (w : world) : list event :=
  new_events w (call_set_light K f dev s w).2.

Definition status_of (K : kernel) (f : set_light_fn) (dev : option loc)
    (s : light_state_t) (w : world) : Z :=
  (call_set_light K f dev s w).1.

(** ** Two kernels to run the module on *)

(** Every call succeeds: [open] gives descriptor 3, [write] takes the
    whole buffer. *)
Definition kernel_ok : kernel :=
  Kernel (fun _ _ => SysOk 3)
         (fun _ _ _ count => SysOk (Z.to_nat count))
         (fun _ _ => SysOk 0).

(** As [kernel_ok], but the file [denied] cannot be opened. *)
Definition kernel_denying (denied : string) : kernel :=
  Kernel (fun _ path => if String.eqb path denied then SysErr EACCES else SysOk 3)
         (fun _ _ _ count => SysOk (Z.to_nat count))
         (fun _ _ => SysOk 0).

Definition set_color (c : Z) (s : light_state_t) : light_state_t :=
  LightState c (flashMode s) (flashOnMS s) (flashOffMS s) (brightnessMode s).

(** A colour with its top byte replaced by [a]. *)
Definition replace_alpha (a c : Z) : Z :=
  Z.lor (Z.shiftl a 24) (Z.land c 0x00ffffff).

(** Bits [lo] to [lo + 7] of a colour, by division. *)
Definition channel (c lo : Z) : Z := (c / 2 ^ lo) mod 2 ^ 8.

(** The luma formula, on unbounded integers. *)
Definition luma (r g b : Z) : Z := (77 * r + 150 * g + 29 * b) / 2 ^ 8.

Definition state_112233_timed : light_state_t :=
  LightState 0x00112233 LIGHT_FLASH_TIMED 100 200 0.

(** ** Vocabulary of the statements *)

(** What the [switch] on the flash mode leaves in [(onMS, offMS)]
    (lines 154-165, 182-193, 234-245). *)
Definition flash_durations (state : light_state_t) : Z * Z :=
  if (flashMode state =? LIGHT_FLASH_HARDWARE)
     || (flashMode state =? LIGHT_FLASH_TIMED)
  then (flashOnMS state, flashOffMS state)
  else (0, 0).

(** The durations the notification and attention operations write: the
    requested pair when the flash mode asks for blinking and both are
    positive, else zero and zero. *)
Definition written_durations (s : light_state_t) : Z * Z :=
  let '(onMS, offMS) := flash_durations s in
  if (0 <? onMS) && (0 <? offMS) then (onMS, offMS) else (0, 0).

(** The nine calls of the notification and attention operations, with the
    statuses [r1] ... [r9] they returned. *)
Definition rgb_trace (s : light_state_t) (r1 r2 r3 r4 r5 r6 r7 r8 r9 : Z)
  : list event :=
  [EvWriteInt RED_LED_FILE (channel (color s) 16) r1;
   EvWriteInt GREEN_LED_FILE (channel (color s) 8) r2;
   EvWriteInt BLUE_LED_FILE (channel (color s) 0) r3;
   EvWriteInt RED_DELAY_ON_FILE (written_durations s).1 r4;
   EvWriteInt RED_DELAY_OFF_FILE (written_durations s).2 r5;
   EvWriteInt GREEN_DELAY_ON_FILE (written_durations s).1 r6;
   EvWriteInt GREEN_DELAY_OFF_FILE (written_durations s).2 r7;
   EvWriteInt BLUE_DELAY_ON_FILE (written_durations s).1 r8;
   EvWriteInt BLUE_DELAY_OFF_FILE (written_durations s).2 r9].

(** The six (path, value) pairs written to the duration files. *)
Definition duration_writes (l : list event) : list (string * Z) :=
  filter (fun pv => is_duration_file pv.1 = true) (writes_of l).

(** The claim as the spec words it: the status is that of the last call of
    [write_int] the operation made, whatever the file. *)
Definition returns_last_write_status (K : kernel) (f : set_light_fn)
    (dev : option loc) (s : light_state_t) (w : world) : Prop :=
  last (statuses_of any_file (events_of K f dev s w))
  = Some (status_of K f dev s w).

(** The table of the per-light operations: identifier and operation. *)
Definition light_table : list (string * set_light_fn) :=
  [(LIGHT_ID_BACKLIGHT, fn_set_light_backlight);
   (LIGHT_ID_KEYBOARD, fn_set_light_keyboard);
   (LIGHT_ID_BUTTONS, fn_set_light_buttons);
   (LIGHT_ID_BATTERY, fn_set_light_battery);
   (LIGHT_ID_NOTIFICATIONS, fn_set_light_notification);
   (LIGHT_ID_ATTENTION, fn_set_light_attention)].

(** A handle [close_lights] may be given: null, or a live device. *)
Definition valid_handle (w : world) (dev : option loc) : Prop :=
  match dev with
  | None => True
  | Some p => is_Some (heap w !! p)
  end.

(** ** The trace as a function of the kernel's answers *)

(** What one call of [write_int] returns, given the trace [l] the kernel
    answers from. *)
Definition write_status (K : kernel) (l : list event) (p : string) (v : Z)
  : Z :=
  match k_open K l p with
  | SysErr e => neg e
  | SysOk fd =>
      match k_write K l (Z.of_nat fd) (sprintf_d_nl v)
              (Z.of_nat (String.length (sprintf_d_nl v))) with
      | SysOk _ => 0
      | SysErr ew =>
          match k_close K l (Z.of_nat fd) with
          | SysOk _ => neg ew
          | SysErr ec => neg ec
          end
      end
  end.

(** The trace of a sequence of [write_int] calls made one after the other,
    none skipped. *)
Fixpoint run_writes (K : kernel) (l : list event) (ws : list (string * Z))
  : list event :=
  match ws with
  | [] => []
  | (p, v) :: ws' =>
      let e := EvWriteInt p v (write_status K l p v) in
      e :: run_writes K (l ++ [e]) ws'
  end.

(** The files an operation writes and the values, from the light state
    alone. *)
Definition planned_writes (f : set_light_fn) (s : light_state_t)
  : list (string * Z) :=
  match f with
  | fn_set_light_backlight =>
      [(LCD_FILE,
        luma (channel (color s) 16) (channel (color s) 8) (channel (color s) 0))]
  | fn_set_light_keyboard => []
  | fn_set_light_buttons =>
      [(KEYBOARD_FILE, if color s mod 2 ^ 24 =? 0 then 0 else 255)]
  | fn_set_light_battery =>
      [(CHARGING_LED_FILE, if color s =? 0 then 0 else 255)]
  | fn_set_light_notification | fn_set_light_attention =>
      [(RED_LED_FILE, channel (color s) 16);
       (GREEN_LED_FILE, channel (color s) 8);
       (BLUE_LED_FILE, channel (color s) 0);
       (RED_DELAY_ON_FILE, (written_durations s).1);
       (RED_DELAY_OFF_FILE, (written_durations s).2);
       (GREEN_DELAY_ON_FILE, (written_durations s).1);
       (GREEN_DELAY_OFF_FILE, (written_durations s).2);
       (BLUE_DELAY_ON_FILE, (written_durations s).1);
       (BLUE_DELAY_OFF_FILE, (written_durations s).2)]
  end.

Definition takes_lock (f : set_light_fn) : bool :=
  match f with
  | fn_set_light_backlight | fn_set_light_buttons => true
  | _ => false
  end.

(** The whole trace of an operation started at trace [l]. *)
Definition op_trace (K : kernel) (f : set_light_fn) (s : light_state_t)
    (l : list event) : list event :=
  if takes_lock f
  then EvLock :: run_writes K (l ++ [EvLock]) (planned_writes f s) ++ [EvUnlock]
  else run_writes K l (planned_writes f s).

(** Every [write_int] of the trace happens with the mutex held, and the
    mutex is taken and released in turn; [held] is its state at the start,
    the result is its state at the end, [None] when the discipline is
    broken. *)
Fixpoint lock_discipline (held : bool) (l : list event) : option bool :=
  match l with
  | [] => Some held
  | EvLock :: l' => if held then None else lock_discipline true l'
  | EvUnlock :: l' => if held then lock_discipline false l' else None
  | EvWriteInt _ _ _ :: l' => if held then lock_discipline held l' else None
  end.

Definition is_lock_event (e : event) : bool :=
  match e with
  | EvLock | EvUnlock => true
  | EvWriteInt _ _ _ => false
  end.



(** A kernel whose failures carry a real [errno]: positive, an [int]. *)
Definition errno_ok (e : Z) : Prop := 0 < e < 2 ^ 31.

Definition kernel_errnos_positive (K : kernel) : Prop :=
  (forall l p e, k_open K l p = SysErr e -> errno_ok e)
  /\ (forall l fd b n e, k_write K l fd b n = SysErr e -> errno_ok e)
  /\ (forall l fd e, k_close K l fd = SysErr e -> errno_ok e).

(** A kernel on which no [open] and no [write] fails. *)
Definition kernel_accepts (K : kernel) : Prop :=
  (forall l p, exists fd, k_open K l p = SysOk fd)
  /\ (forall l fd b n, exists m, k_write K l fd b n = SysOk m).

(** The colour with red, green and blue all at level [v]. *)
Definition grey (v : Z) : Z := v * 2 ^ 16 + v * 2 ^ 8 + v.

(** * Properties *)

(** ** C integers and bit fields *)

Lemma to_int_small z : in_int z -> to_int z = z.
Proof.
  unfold in_int, to_int. intros Hz.
  rewrite Z.mod_small by lia. lia.
Qed.

Lemma land_low8 x : Z.land x 0xff = x mod 2 ^ 8.
Proof. change 0xff with (Z.ones 8). apply Z.land_ones. lia. Qed.

Lemma land_low24 x : Z.land x 0x00ffffff = x mod 2 ^ 24.
Proof. change 0x00ffffff with (Z.ones 24). apply Z.land_ones. lia. Qed.

Lemma low24_channel x lo :
  0 <= lo <= 16 -> channel (x mod 2 ^ 24) lo = channel x lo.
Proof.
  intros Hlo. unfold channel.
  replace (2 ^ 24) with (2 ^ lo * 2 ^ (24 - lo))
    by (rewrite <- Z.pow_add_r by lia; f_equal; lia).
  rewrite Z.rem_mul_r by lia.
  rewrite (Z.mul_comm (2 ^ lo) (_ mod _)), Z.div_add by lia.
  rewrite (Z.div_small (x mod 2 ^ lo)) by (apply Z.mod_pos_bound; lia).
  rewrite Z.add_0_l.
  replace (2 ^ (24 - lo)) with (2 ^ 8 * 2 ^ (16 - lo))
    by (rewrite <- Z.pow_add_r by lia; f_equal; lia).
  rewrite Z.rem_mul_r by lia.
  rewrite Z.mul_comm, Z.mod_add by lia.
  apply Z.mod_mod. lia.
Qed.

Lemma channel_bounds c lo : 0 <= channel c lo <= 255.
Proof.
  unfold channel.
  pose proof (Z.mod_pos_bound (c / 2 ^ lo) (2 ^ 8) ltac:(lia)). lia.
Qed.

Lemma shiftr_land_channel c lo :
  0 <= lo -> Z.land (Z.shiftr c lo) 0xff = channel c lo.
Proof.
  intros Hlo. rewrite land_low8, Z.shiftr_div_pow2 by lia. reflexivity.
Qed.

Lemma low24_unchanged c : to_int (Z.land c 0x00ffffff) = c mod 2 ^ 24.
Proof.
  rewrite land_low24. apply to_int_small. unfold in_int.
  pose proof (Z.mod_pos_bound c (2 ^ 24) ltac:(lia)). lia.
Qed.

Lemma replace_alpha_low24 a c :
  Z.land (replace_alpha a c) 0x00ffffff = Z.land c 0x00ffffff.
Proof.
  unfold replace_alpha. rewrite Z.land_lor_distr_l.
  rewrite <- Z.land_assoc, Z.land_diag.
  replace (Z.land (Z.shiftl a 24) 0x00ffffff) with 0; [reflexivity |].
  rewrite land_low24, Z.shiftl_mul_pow2 by lia.
  symmetry. apply Z.mod_mul. lia.
Qed.

Lemma luma_bounds r g b :
  0 <= r <= 255 -> 0 <= g <= 255 -> 0 <= b <= 255 -> 0 <= luma r g b <= 255.
Proof.
  intros Hr Hg Hb. unfold luma. split.
  - apply Z.div_pos; lia.
  - apply Z.div_le_upper_bound; lia.
Qed.

(** The code's wrapped [int] arithmetic never wraps here: the function is
    the luma of the three channels. *)
Lemma rgb_to_brightness_luma s :
  rgb_to_brightness s
  = luma (channel (color s) 16) (channel (color s) 8) (channel (color s) 0).
Proof.
  unfold rgb_to_brightness. rewrite low24_unchanged.
  rewrite !shiftr_land_channel by lia.
  rewrite land_low8.
  replace ((color s mod 2 ^ 24) mod 2 ^ 8) with (channel (color s mod 2 ^ 24) 0)
    by (unfold channel; rewrite Z.pow_0_r, Z.div_1_r; reflexivity).
  rewrite !low24_channel by lia.
  pose proof (channel_bounds (color s) 16).
  pose proof (channel_bounds (color s) 8).
  pose proof (channel_bounds (color s) 0).
  unfold mul. rewrite !to_int_small by (unfold in_int; lia).
  unfold add. rewrite (to_int_small (77 * _ + 150 * _)) by (unfold in_int; lia).
  rewrite to_int_small by (unfold in_int; lia).
  rewrite Z.shiftr_div_pow2 by lia. reflexivity.
Qed.

(** ** [write_int] and the trace *)

Lemma new_events_app w w' l : log w' = log w ++ l -> new_events w w' = l.
Proof. intros E. unfold new_events. rewrite E. apply drop_app_length. Qed.

(** A call of [write_int] returns, adds itself to the trace with the
    status it returns, and leaves the mutex, the heap and the one-shot
    guard alone. *)
Lemma write_int_run K p v w :
  exists e aw,
    (write_int K p v w).2
    = World e aw (g_init w) (g_lock w) (heap w)
        (log w ++ [EvWriteInt p v (write_int K p v w).1]).
Proof.
  unfold write_int, write_int_body, sys_open, sys_write, sys_close,
    sysret_value, gets, modify, mbind, M_bind, mret, M_ret.
  destruct w as [e0 aw0 gi gl h l]; simpl.
  destruct (k_open K l p) as [fd | eo]; simpl.
  - replace (0 <=? Z.of_nat fd) with true by (symmetry; apply Z.leb_le; lia).
    destruct (k_write _ _ _ _ _) as [amt | ew]; simpl;
      destruct (k_close _ _ _) as [c | ec]; simpl; eauto.
  - destruct (aw0 =? 0); simpl; eauto.
Qed.

(** The status of a call, read off the kernel's answers: 0 when the file
    opens and the write does not return -1, else minus the [errno] of the
    failing call ([close] runs before [errno] is read). *)
Lemma write_int_status K p v w :
  (write_int K p v w).1
  = match k_open K (log w) p with
    | SysErr e => neg e
    | SysOk fd =>
        match k_write K (log w) (Z.of_nat fd) (sprintf_d_nl v)
                (Z.of_nat (String.length (sprintf_d_nl v))) with
        | SysOk _ => 0
        | SysErr ew =>
            match k_close K (log w) (Z.of_nat fd) with
            | SysOk _ => neg ew
            | SysErr ec => neg ec
            end
        end
    end.
Proof.
  unfold write_int, write_int_body, sys_open, sys_write, sys_close,
    sysret_value, gets, modify, mbind, M_bind, mret, M_ret.
  destruct w as [e0 aw0 gi gl h l]; simpl.
  destruct (k_open K l p) as [fd | eo]; simpl.
  - replace (0 <=? Z.of_nat fd) with true by (symmetry; apply Z.leb_le; lia).
    destruct (k_write _ _ _ _ _) as [amt | ew]; simpl;
      destruct (k_close _ _ _) as [c | ec]; simpl; try done.
    all: by replace (Z.of_nat amt =? -1) with false
           by (symmetry; apply Z.eqb_neq; lia).
  - by destruct (aw0 =? 0).
Qed.

Example sprintf_255 :
  sprintf_d_nl 255 = String.append "255" (String (Ascii.ascii_of_nat 10) "").
Proof. reflexivity. Qed.

Ltac step_write :=
  match goal with
  | |- context [write_int ?K ?p ?v ?w] =>
      let e := fresh "e" in
      let aw := fresh "aw" in
      let H := fresh "H" in
      let r := fresh "r" in
      let w' := fresh "w" in
      destruct (write_int_run K p v w) as (e & aw & H);
      destruct (write_int K p v w) as [r w']; simpl in H; subst w'; simpl
  end.

Ltac unfold_monad :=
  unfold pthread_mutex_lock, pthread_mutex_unlock, gets, modify,
    mbind, M_bind, mret, M_ret; simpl.

Lemma backlight_run K dev s w :
  exists r e aw,
    set_light_backlight K dev s w
    = (r, World e aw (g_init w) false (heap w)
            (log w ++ [EvLock; EvWriteInt LCD_FILE (rgb_to_brightness s) r;
                       EvUnlock])).
Proof.
  unfold set_light_backlight. unfold_monad. step_write.
  exists r, e, aw. unfold add_event; simpl. by rewrite <- !app_assoc.
Qed.

Lemma buttons_run K dev s w :
  exists r e aw,
    set_light_buttons K dev s w
    = (r, World e aw (g_init w) false (heap w)
            (log w ++ [EvLock;
                       EvWriteInt KEYBOARD_FILE
                         (if truthy (is_lit s) then 255 else 0) r;
                       EvUnlock])).
Proof.
  unfold set_light_buttons. unfold_monad. step_write.
  exists r, e, aw. unfold add_event; simpl. by rewrite <- !app_assoc.
Qed.

Lemma battery_run K dev s w :
  exists r e aw,
    set_light_battery K dev s w
    = (r, World e aw (g_init w) (g_lock w) (heap w)
            (log w ++ [EvWriteInt CHARGING_LED_FILE
                         (if truthy (color s) then 255 else 0) r])).
Proof.
  unfold set_light_battery. destruct (_ || _).
  all: unfold_monad; step_write; eauto.
Qed.

Lemma notification_run K dev s w :
  exists r1 r2 r3 r4 r5 r6 r7 r8 r9 e aw,
    set_light_notification K dev s w
    = (r3, World e aw (g_init w) (g_lock w) (heap w)
             (log w ++ rgb_trace s r1 r2 r3 r4 r5 r6 r7 r8 r9)).
Proof.
  unfold set_light_notification, rgb_trace, written_durations,
    flash_durations.
  rewrite !shiftr_land_channel by lia.
  replace (Z.land (color s) 255) with (channel (color s) 0)
    by (rewrite land_low8; unfold channel;
        rewrite Z.pow_0_r, Z.div_1_r; reflexivity).
  destruct (_ || _); simpl; [destruct (_ && _); simpl |].
  all: unfold_monad; do 9 step_write.
  all: do 11 eexists; rewrite <- !app_assoc; reflexivity.
Qed.

Lemma attention_run K dev s w :
  exists r1 r2 r3 r4 r5 r6 r7 r8 r9 e aw,
    set_light_attention K dev s w
    = (r3, World e aw (g_init w) (g_lock w) (heap w)
             (log w ++ rgb_trace s r1 r2 r3 r4 r5 r6 r7 r8 r9)).
Proof. exact (notification_run K dev s w). Qed.

Lemma events_of_run K f dev s w r w' l :
  call_set_light K f dev s w = (r, w') -> log w' = log w ++ l ->
  events_of K f dev s w = l /\ status_of K f dev s w = r.
Proof.
  intros E L. unfold events_of, status_of. rewrite E. simpl.
  split; [by apply new_events_app | done].
Qed.

Lemma rgb_trace_brightness_statuses s r1 r2 r3 r4 r5 r6 r7 r8 r9 :
  statuses_of is_brightness_file (rgb_trace s r1 r2 r3 r4 r5 r6 r7 r8 r9)
  = [r1; r2; r3].
Proof. reflexivity. Qed.

(** ** The colour helpers *)

(** C3. For every colour C (and whatever the other fields of the light
    state are), [rgb_to_brightness] is (77*R + 150*G + 29*B) >> 8 with R,
    G, B the bits 16-23, 8-15 and 0-7 of C. The function is a pure function
    of the state: it does not run in the monad of the world. *)
Theorem rgb_to_brightness_formula (C fm on off bm : Z) :
  rgb_to_brightness (LightState C fm on off bm)
  = Z.shiftr (77 * channel C 16 + 150 * channel C 8 + 29 * channel C 0) 8.
Proof.
  rewrite rgb_to_brightness_luma. simpl. unfold luma.
  rewrite Z.shiftr_div_pow2 by lia. reflexivity.
Qed.

(** C8. For every colour C, [is_lit] is true (non-zero) exactly when
    (C & 0x00FFFFFF) != 0, and replacing the top byte of C by any other
    leaves its result unchanged. *)
Theorem is_lit_low24_bits (C fm on off bm a : Z) :
  (truthy (is_lit (LightState C fm on off bm)) = true
   <-> Z.land C 0x00FFFFFF <> 0)
  /\ is_lit (LightState (replace_alpha a C) fm on off bm)
     = is_lit (LightState C fm on off bm).
Proof.
  unfold is_lit; simpl. split.
  - rewrite low24_unchanged, land_low24. unfold truthy.
    destruct (Z.eqb_spec (C mod 2 ^ 24) 0); simpl; split; congruence.
  - by rewrite replace_alpha_low24.
Qed.

(** C10. For every colour, [rgb_to_brightness] lies between 0 and 255, and
    the one value the backlight operation writes, to the backlight file, is
    that brightness. *)
Theorem backlight_brightness_is_a_byte K dev s w :
  0 <= rgb_to_brightness s <= 255
  /\ writes_of (events_of K fn_set_light_backlight dev s w)
     = [(LCD_FILE, rgb_to_brightness s)].
Proof.
  split.
  - rewrite rgb_to_brightness_luma. apply luma_bounds; apply channel_bounds.
  - destruct (backlight_run K dev s w) as (r & e & aw & E).
    by destruct (events_of_run K fn_set_light_backlight dev s w _ _ _ E eq_refl)
      as [-> _].
Qed.

(** ** The battery operation *)

(** C7. For every light state the battery operation makes exactly one
    call of [write_int]: 255 to the charging-LED brightness file when the
    colour is non-zero, else 0; it adds nothing else to the trace (no other
    file, no lock), and the whole run (writes, status, final world) is the
    same whatever the flash mode and the two durations are. *)
Theorem battery_single_write K dev s w :
  events_of K fn_set_light_battery dev s w
  = [EvWriteInt CHARGING_LED_FILE (if color s =? 0 then 0 else 255)
       (status_of K fn_set_light_battery dev s w)]
  /\ forall fm on off,
       set_light_battery K dev
         (LightState (color s) fm on off (brightnessMode s)) w
       = set_light_battery K dev s w.
Proof.
  split.
  - destruct (battery_run K dev s w) as (r & e & aw & E).
    destruct (events_of_run K fn_set_light_battery dev s w _ _ _ E eq_refl)
      as [-> ->].
    unfold truthy. by destruct (color s =? 0).
  - intros fm on off. unfold set_light_battery. simpl.
    by do 2 destruct (_ || _).
Qed.

(** ** The notification and attention operations *)

(** C5. For every light state (and every kernel, handle and world) the
    attention operation runs exactly as the notification operation: the
    same calls of [write_int] in the same order, the same status, the same
    final world. *)
Theorem attention_same_as_notification K dev s w :
  set_light_attention K dev s w = set_light_notification K dev s w.
Proof. unfold set_light_attention, set_light_notification. reflexivity. Qed.

Lemma rgb_events K f dev s w :
  f = fn_set_light_notification \/ f = fn_set_light_attention ->
  exists r1 r2 r3 r4 r5 r6 r7 r8 r9,
    events_of K f dev s w = rgb_trace s r1 r2 r3 r4 r5 r6 r7 r8 r9
    /\ status_of K f dev s w = r3.
Proof.
  intros Hf.
  assert (exists r1 r2 r3 r4 r5 r6 r7 r8 r9 e aw,
    call_set_light K f dev s w
    = (r3, World e aw (g_init w) (g_lock w) (heap w)
             (log w ++ rgb_trace s r1 r2 r3 r4 r5 r6 r7 r8 r9)))
    as (r1 & r2 & r3 & r4 & r5 & r6 & r7 & r8 & r9 & e & aw & E).
  { destruct Hf as [-> | ->]; simpl;
      [apply notification_run | apply attention_run]. }
  exists r1, r2, r3, r4, r5, r6, r7, r8, r9.
  exact (events_of_run K f dev s w _ _ _ E eq_refl).
Qed.

(** C4. The notification operation and the attention operation, at colour
    0x00112233 with flash mode TIMED, on = 100 and off = 200, write 0x11,
    0x22 and 0x33 to the red, green and blue brightness files and then
    100/200 to each delay_on/delay_off pair; with flash mode NONE they write
    0 to the six duration files whatever the colour and the requested
    durations are. *)
Theorem notification_attention_example K dev w f :
  f = fn_set_light_notification \/ f = fn_set_light_attention ->
  (forall bm,
     writes_of (events_of K f dev
                  (LightState 0x00112233 LIGHT_FLASH_TIMED 100 200 bm) w)
     = [(RED_LED_FILE, 0x11); (GREEN_LED_FILE, 0x22); (BLUE_LED_FILE, 0x33);
        (RED_DELAY_ON_FILE, 100); (RED_DELAY_OFF_FILE, 200);
        (GREEN_DELAY_ON_FILE, 100); (GREEN_DELAY_OFF_FILE, 200);
        (BLUE_DELAY_ON_FILE, 100); (BLUE_DELAY_OFF_FILE, 200)])
  /\ (forall C on off bm,
        duration_writes (events_of K f dev
                           (LightState C LIGHT_FLASH_NONE on off bm) w)
        = [(RED_DELAY_ON_FILE, 0); (RED_DELAY_OFF_FILE, 0);
           (GREEN_DELAY_ON_FILE, 0); (GREEN_DELAY_OFF_FILE, 0);
           (BLUE_DELAY_ON_FILE, 0); (BLUE_DELAY_OFF_FILE, 0)]).
Proof.
  intros Hf. split.
  - intros bm.
    destruct (rgb_events K f dev (LightState 0x00112233 LIGHT_FLASH_TIMED 100 200 bm)
                w Hf) as (r1 & r2 & r3 & r4 & r5 & r6 & r7 & r8 & r9 & -> & _).
    reflexivity.
  - intros C on off bm.
    destruct (rgb_events K f dev (LightState C LIGHT_FLASH_NONE on off bm)
                w Hf) as (r1 & r2 & r3 & r4 & r5 & r6 & r7 & r8 & r9 & -> & _).
    reflexivity.
Qed.

Lemma notification_attention_example_witness :
  writes_of (events_of kernel_ok fn_set_light_attention None
               (LightState 0x00112233 LIGHT_FLASH_TIMED 100 200 0)
               initial_world)
  = [(RED_LED_FILE, 0x11); (GREEN_LED_FILE, 0x22); (BLUE_LED_FILE, 0x33);
     (RED_DELAY_ON_FILE, 100); (RED_DELAY_OFF_FILE, 200);
     (GREEN_DELAY_ON_FILE, 100); (GREEN_DELAY_OFF_FILE, 200);
     (BLUE_DELAY_ON_FILE, 100); (BLUE_DELAY_OFF_FILE, 200)].
Proof.
  apply (notification_attention_example kernel_ok None initial_world
           fn_set_light_attention).
  right. reflexivity.
Defined.

(** ** The status an operation returns *)

(** C2, as stated, fails: when only the last duration file cannot be
    opened, the notification operation returns 0 although its last write
    returned -EACCES. *)
Lemma notification_drops_last_write_status :
  status_of (kernel_denying BLUE_DELAY_OFF_FILE) fn_set_light_notification
    None state_112233_timed initial_world = 0
  /\ last (statuses_of any_file
             (events_of (kernel_denying BLUE_DELAY_OFF_FILE)
                fn_set_light_notification None state_112233_timed
                initial_world)) = Some (- EACCES)
  /\ ~ returns_last_write_status (kernel_denying BLUE_DELAY_OFF_FILE)
         fn_set_light_notification None state_112233_timed initial_world.
Proof.
  split; [by vm_compute |]. split; [by vm_compute |].
  unfold returns_last_write_status. vm_compute. discriminate.
Qed.

(** C2, amended. For every per-light operation and every light state, the
    status returned is that of the last write to a brightness file the
    operation attempted (for notification and attention the blue one; an
    earlier brightness write and the six duration writes do not count), and
    0 when it attempted none (keyboard). *)
Theorem status_is_last_brightness_write K f dev s w :
  status_of K f dev s w
  = default 0 (last (statuses_of is_brightness_file (events_of K f dev s w))).
Proof.
  destruct f.
  - destruct (backlight_run K dev s w) as (r & e & aw & E).
    by destruct (events_of_run K fn_set_light_backlight dev s w _ _ _ E eq_refl)
      as [-> ->].
  - unfold status_of, events_of, new_events. simpl.
    by rewrite drop_all.
  - destruct (buttons_run K dev s w) as (r & e & aw & E).
    by destruct (events_of_run K fn_set_light_buttons dev s w _ _ _ E eq_refl)
      as [-> ->].
  - destruct (battery_run K dev s w) as (r & e & aw & E).
    by destruct (events_of_run K fn_set_light_battery dev s w _ _ _ E eq_refl)
      as [-> ->].
  - destruct (rgb_events K fn_set_light_notification dev s w (or_introl eq_refl))
      as (r1 & r2 & r3 & r4 & r5 & r6 & r7 & r8 & r9 & -> & ->).
    by rewrite rgb_trace_brightness_statuses.
  - destruct (rgb_events K fn_set_light_attention dev s w (or_intror eq_refl))
      as (r1 & r2 & r3 & r4 & r5 & r6 & r7 & r8 & r9 & -> & ->).
    by rewrite rgb_trace_brightness_statuses.
Qed.

(** ** The alpha byte *)

Lemma replace_alpha_channel a c lo :
  0 <= lo <= 16 -> channel (replace_alpha a c) lo = channel c lo.
Proof.
  intros Hlo. rewrite <- (low24_channel (replace_alpha a c)) by done.
  rewrite <- (low24_channel c) by done.
  by rewrite <- !land_low24, replace_alpha_low24.
Qed.

Lemma land_255_channel c : Z.land c 0xFF = channel c 0.
Proof.
  rewrite land_low8. unfold channel. by rewrite Z.pow_0_r, Z.div_1_r.
Qed.

(** Outside the battery operation the top byte of the colour changes
    nothing: the run is the same, write for write. *)
Lemma alpha_ignored_outside_battery K f dev s a w :
  f <> fn_set_light_battery ->
  call_set_light K f dev (set_color (replace_alpha a (color s)) s) w
  = call_set_light K f dev s w.
Proof.
  intros Hf. destruct f; try done; simpl.
  - unfold set_light_backlight.
    rewrite !rgb_to_brightness_luma. simpl.
    by rewrite !replace_alpha_channel by lia.
  - unfold set_light_buttons, is_lit. simpl.
    by rewrite replace_alpha_low24.
  - unfold set_light_notification. simpl.
    rewrite !shiftr_land_channel, !land_255_channel by lia.
    by rewrite !replace_alpha_channel by lia.
  - unfold set_light_attention. simpl.
    rewrite !shiftr_land_channel, !land_255_channel by lia.
    by rewrite !replace_alpha_channel by lia.
Qed.

(** C1. The battery operation does not ignore the alpha byte. The colours
    0xFF000000 and 0x00000000 differ in the top byte only and neither is
    lit, yet the battery operation writes 255 for the first and 0 for the
    second: it tests the whole 32-bit word, where the buttons operation
    tests [is_lit]. *)
Theorem battery_reads_alpha_byte K dev w fm on off bm :
  0xFF000000 = replace_alpha 0xFF 0x00000000
  /\ is_lit (LightState 0xFF000000 fm on off bm) = 0
  /\ writes_of (events_of K fn_set_light_battery dev
                  (LightState 0xFF000000 fm on off bm) w)
     = [(CHARGING_LED_FILE, 255)]
  /\ writes_of (events_of K fn_set_light_battery dev
                  (LightState 0x00000000 fm on off bm) w)
     = [(CHARGING_LED_FILE, 0)]
  /\ writes_of (events_of K fn_set_light_buttons dev
                  (LightState 0xFF000000 fm on off bm) w)
     = [(KEYBOARD_FILE, 0)].
Proof.
  split; [reflexivity |]. split; [reflexivity |].
  split; [| split].
  - destruct (battery_run K dev (LightState 0xFF000000 fm on off bm) w)
      as (r & e & aw & E).
    by destruct (events_of_run K fn_set_light_battery dev _ w _ _ _ E eq_refl)
      as [-> _].
  - destruct (battery_run K dev (LightState 0x00000000 fm on off bm) w)
      as (r & e & aw & E).
    by destruct (events_of_run K fn_set_light_battery dev _ w _ _ _ E eq_refl)
      as [-> _].
  - destruct (buttons_run K dev (LightState 0xFF000000 fm on off bm) w)
      as (r & e & aw & E).
    by destruct (events_of_run K fn_set_light_buttons dev _ w _ _ _ E eq_refl)
      as [-> _].
Qed.

(** ** Opening and closing a device *)

Lemma strcmp_eqb a b : (strcmp a b =? 0) = bool_decide (a = b).
Proof.
  unfold strcmp. destruct (String.compare a b) eqn:E.
  - apply String.compare_eq_iff in E. by rewrite bool_decide_eq_true_2.
  - rewrite bool_decide_eq_false_2; [done |].
    intros ->. pose proof (String.compare_antisym b b) as H.
    by rewrite E in H.
  - rewrite bool_decide_eq_false_2; [done |].
    intros ->. pose proof (String.compare_antisym b b) as H.
    by rewrite E in H.
Qed.

(** The device [open_lights] builds, at the first free address. *)
Lemma open_lights_bind_run TAG u m f w :
  open_lights_bind TAG u m f w
  = ((0, Some (fresh (dom (heap w)))),
     World (errno w) (already_warned w) true
       (if g_init w then g_lock w else false)
       (<[fresh (dom (heap w)) :=
            LightDevice (HwDevice TAG 0 m (Some fn_close_lights)) (Some f)]>
          (heap w))
       (log w)).
Proof.
  unfold open_lights_bind, pthread_once, init_globals, pthread_mutex_init,
    malloc, memset_zero, assign, gets, modify, mbind, M_bind, mret, M_ret.
  destruct w as [e aw gi gl h l]; simpl.
  destruct gi; simpl; unfold set_heap; simpl;
    by rewrite insert_insert_eq, !alter_insert_eq.
Qed.

(** C6. [open_lights] on an identifier of the table returns 0 and stores
    in [*device] a fresh handle whose [set_light] is the operation the
    table names for it; on any other string it returns -EINVAL, stores no
    handle and changes nothing. *)
Theorem open_lights_follows_table TAG u m name w :
  (forall f, (name, f) ∈ light_table ->
     exists p d,
       (open_lights TAG u m name w).1 = (0, Some p)
       /\ heap w !! p = None
       /\ heap (open_lights TAG u m name w).2 !! p = Some d
       /\ set_light d = Some f)
  /\ (name ∉ light_table.*1 ->
      open_lights TAG u m name w = ((- EINVAL, None), w)).
Proof.
  split.
  - intros f Hf. exists (fresh (dom (heap w))).
    exists (LightDevice (HwDevice TAG 0 m (Some fn_close_lights)) (Some f)).
    assert (open_lights TAG u m name w = open_lights_bind TAG u m f w) as ->.
    { unfold light_table in Hf.
      repeat (apply elem_of_cons in Hf as [[= -> ->] | Hf]; [reflexivity |]).
      by apply elem_of_nil in Hf. }
    rewrite open_lights_bind_run. simpl.
    split; [done |]. split.
    + apply not_elem_of_dom, is_fresh.
    + split; [apply lookup_insert_eq | done].
  - intros Hn. unfold open_lights. rewrite !strcmp_eqb.
    repeat (rewrite bool_decide_eq_false_2;
            [| intros <-; apply Hn; compute_done]).
    reflexivity.
Qed.

Lemma open_lights_follows_table_witness :
  (exists p d,
     (open_lights 0 zeroed_device None "buttons" initial_world).1 = (0, Some p)
     /\ heap initial_world !! p = None
     /\ heap (open_lights 0 zeroed_device None "buttons" initial_world).2 !! p
        = Some d
     /\ set_light d = Some fn_set_light_buttons)
  /\ open_lights 0 zeroed_device None "button" initial_world
     = ((- EINVAL, None), initial_world).
Proof.
  split.
  - apply (open_lights_follows_table 0 zeroed_device None "buttons"
             initial_world).
    compute_done.
  - apply (open_lights_follows_table 0 zeroed_device None "button"
             initial_world).
    compute_done.
Defined.

(** C9. [close_lights] returns 0 on every handle: on a null handle it
    does nothing, on a live one it releases the device. *)
Theorem close_lights_returns_0 w dev :
  valid_handle w dev ->
  close_lights dev w
  = Some (0, match dev with
             | None => w
             | Some p => set_heap (delete p (heap w)) w
             end).
Proof.
  destruct dev as [p |]; simpl; [| done].
  intros [d Hd]. unfold free. by rewrite Hd.
Qed.

Lemma close_lights_returns_0_witness :
  close_lights None initial_world = Some (0, initial_world)
  /\ exists w',
       close_lights
         (open_lights 0 zeroed_device None "battery" initial_world).1.2
         (open_lights 0 zeroed_device None "battery" initial_world).2
       = Some (0, w').
Proof.
  split.
  - apply (close_lights_returns_0 initial_world None). exact I.
  - eexists.
    apply (close_lights_returns_0
             (open_lights 0 zeroed_device None "battery" initial_world).2
             (open_lights 0 zeroed_device None "battery" initial_world).1.2).
    vm_compute. eexists. reflexivity.
Defined.

(** * Further properties of the module *)

(** ** One call of [write_int] *)

Lemma write_int_eq K p v w :
  exists e aw,
    write_int K p v w
    = (write_status K (log w) p v,
       World e aw (g_init w) (g_lock w) (heap w)
         (log w ++ [EvWriteInt p v (write_status K (log w) p v)])).
Proof.
  destruct (write_int_run K p v w) as (e & aw & H).
  pose proof (write_int_status K p v w) as Hs.
  fold (write_status K (log w) p v) in Hs.
  exists e, aw. rewrite Hs in H.
  destruct (write_int K p v w) as [r w']; simpl in *. by subst.
Qed.

Ltac step_write_eq :=
  match goal with
  | |- context [write_int ?K ?p ?v ?w] =>
      let e := fresh "e" in
      let aw := fresh "aw" in
      let H := fresh "H" in
      destruct (write_int_eq K p v w) as (e & aw & H);
      rewrite H; clear H; simpl
  end.

Lemma writes_of_run_writes K ws l : writes_of (run_writes K l ws) = ws.
Proof.
  revert l. induction ws as [| [p v] ws IH]; intros l; simpl; [done |].
  by rewrite IH.
Qed.

Lemma writes_of_app l1 l2 : writes_of (l1 ++ l2) = writes_of l1 ++ writes_of l2.
Proof.
  induction l1 as [| [| | p v r] l1 IH]; simpl; [done | done | done |].
  by rewrite IH.
Qed.

Lemma buttons_value s :
  (if truthy (is_lit s) then 255 else 0)
  = (if color s mod 2 ^ 24 =? 0 then 0 else 255).
Proof.
  unfold is_lit, truthy. rewrite low24_unchanged.
  by destruct (color s mod 2 ^ 24 =? 0).
Qed.

Lemma battery_value s :
  (if truthy (color s) then 255 else 0) = (if color s =? 0 then 0 else 255).
Proof. unfold truthy. by destruct (color s =? 0). Qed.

(** Every operation, run from any world: the status and the added trace
    are [op_trace] at the starting trace; the heap and the one-shot guard
    are as before; the mutex is released if the operation takes it and
    untouched if not. *)
Lemma op_run K f dev s w :
  exists e aw,
    call_set_light K f dev s w
    = (default 0 (last (statuses_of is_brightness_file
                          (op_trace K f s (log w)))),
       World e aw (g_init w) (if takes_lock f then false else g_lock w)
         (heap w) (log w ++ op_trace K f s (log w))).
Proof.
  destruct f; unfold op_trace; simpl.
  - unfold set_light_backlight. rewrite rgb_to_brightness_luma.
    unfold_monad. step_write_eq. do 2 eexists.
    unfold add_event; simpl. by rewrite <- !app_assoc.
  - unfold set_light_keyboard, mret, M_ret. destruct w; simpl.
    do 2 eexists. by rewrite app_nil_r.
  - unfold set_light_buttons. rewrite buttons_value.
    unfold_monad. step_write_eq. do 2 eexists.
    unfold add_event; simpl. by rewrite <- !app_assoc.
  - unfold set_light_battery. rewrite battery_value.
    destruct (_ || _); unfold_monad; step_write_eq; by do 2 eexists.
  - unfold set_light_notification, written_durations, flash_durations.
    rewrite !shiftr_land_channel, land_255_channel by lia.
    destruct (_ || _); simpl; [destruct (_ && _); simpl |].
    all: unfold_monad; do 9 step_write_eq.
    all: do 2 eexists; by rewrite <- !app_assoc.
  - unfold set_light_attention, written_durations, flash_durations.
    rewrite !shiftr_land_channel, land_255_channel by lia.
    destruct (_ || _); simpl; [destruct (_ && _); simpl |].
    all: unfold_monad; do 9 step_write_eq.
    all: do 2 eexists; by rewrite <- !app_assoc.
Qed.

Lemma op_events K f dev s w :
  events_of K f dev s w = op_trace K f s (log w).
Proof.
  destruct (op_run K f dev s w) as (e & aw & E).
  by destruct (events_of_run K f dev s w _ _ _ E eq_refl).
Qed.

Lemma op_status K f dev s w :
  status_of K f dev s w
  = default 0 (last (statuses_of is_brightness_file (op_trace K f s (log w)))).
Proof.
  destruct (op_run K f dev s w) as (e & aw & E).
  by destruct (events_of_run K f dev s w _ _ _ E eq_refl).
Qed.

(** X1. What [write_int] reports. When the file cannot be opened the
    status is minus the [errno] of [open] and the warned flag is raised;
    when [write] returns anything but -1, a short count included, the
    status is 0 whatever [close] does; when [write] fails the status is
    minus the [errno] read after [close], so a failing [close] replaces
    the error of [write]. *)
Theorem write_int_outcomes K p v w :
  (forall e,
     k_open K (log w) p = SysErr e ->
     write_int K p v w
     = (neg e,
        World e (if already_warned w =? 0 then 1 else already_warned w)
          (g_init w) (g_lock w) (heap w)
          (log w ++ [EvWriteInt p v (neg e)])))
  /\ (forall fd n,
        k_open K (log w) p = SysOk fd ->
        k_write K (log w) (Z.of_nat fd) (sprintf_d_nl v)
          (Z.of_nat (String.length (sprintf_d_nl v))) = SysOk n ->
        (write_int K p v w).1 = 0
        /\ already_warned (write_int K p v w).2 = already_warned w)
  /\ (forall fd ew,
        k_open K (log w) p = SysOk fd ->
        k_write K (log w) (Z.of_nat fd) (sprintf_d_nl v)
          (Z.of_nat (String.length (sprintf_d_nl v))) = SysErr ew ->
        (write_int K p v w).1
        = neg (match k_close K (log w) (Z.of_nat fd) with
               | SysOk _ => ew
               | SysErr ec => ec
               end)
        /\ (write_int K p v w).1 = neg (errno (write_int K p v w).2)).
Proof.
  unfold write_int, write_int_body, sys_open, sys_write, sys_close,
    sysret_value, gets, modify, mbind, M_bind, mret, M_ret.
  destruct w as [e0 aw0 gi gl h l]; simpl.
  split; [| split].
  - intros e ->. simpl. by destruct (aw0 =? 0).
  - intros fd n Ho Hw. rewrite Ho. simpl.
    replace (0 <=? Z.of_nat fd) with true by (symmetry; apply Z.leb_le; lia).
    destruct (k_write _ _ _ _ _) as [m | ew']; [| done]. simpl.
    replace (Z.of_nat m =? -1) with false by (symmetry; apply Z.eqb_neq; lia).
    by destruct (k_close _ _ _).
  - intros fd ew Ho Hw. rewrite Ho. simpl.
    replace (0 <=? Z.of_nat fd) with true by (symmetry; apply Z.leb_le; lia).
    destruct (k_write _ _ _ _ _) as [m | ew']; [done |].
    injection Hw as ->. simpl. by destruct (k_close _ _ _).
Qed.

Lemma write_int_outcomes_witness :
  write_int (kernel_denying LCD_FILE) LCD_FILE 7 initial_world
  = (- EACCES,
     World EACCES 1 false false ∅ [EvWriteInt LCD_FILE 7 (- EACCES)]).
Proof.
  exact (proj1 (write_int_outcomes (kernel_denying LCD_FILE) LCD_FILE 7
                  initial_world) EACCES eq_refl).
Defined.

(** X2. The files an operation writes, their order and the values are
    fixed by the light state alone: whatever the kernel answers, no write
    is skipped, repeated or changed after a failure. Backlight writes the
    luma of the three channels, buttons 255 or 0 by the low 24 bits,
    battery 255 or 0 by the whole colour, notification and attention the
    three channels and then the three duration pairs; keyboard writes
    nothing. *)
Theorem writes_fixed_by_state K f dev s w :
  writes_of (events_of K f dev s w) = planned_writes f s.
Proof.
  rewrite op_events. unfold op_trace.
  destruct (takes_lock f); simpl.
  - by rewrite writes_of_app, writes_of_run_writes, app_nil_r.
  - apply writes_of_run_writes.
Qed.

(** X3. The trace an operation adds and the status it returns depend on
    the starting world through its trace only: a stale [errno], the warned
    flag, the heap, the mutex, the one-shot guard and the handle passed
    have no influence. *)
Theorem outcome_depends_on_trace_only K f dev dev' s w w' :
  log w = log w' ->
  events_of K f dev s w = events_of K f dev' s w'
  /\ status_of K f dev s w = status_of K f dev' s w'.
Proof.
  intros E. rewrite !op_events, !op_status. by rewrite E.
Qed.

Lemma outcome_depends_on_trace_only_witness :
  events_of (kernel_denying BLUE_LED_FILE) fn_set_light_notification None
    state_112233_timed initial_world
  = events_of (kernel_denying BLUE_LED_FILE) fn_set_light_notification
      (Some 1%positive) state_112233_timed
      (World 5 1 true false {[1%positive := zeroed_device]} [])
  /\ status_of (kernel_denying BLUE_LED_FILE) fn_set_light_notification None
       state_112233_timed initial_world
     = status_of (kernel_denying BLUE_LED_FILE) fn_set_light_notification
         (Some 1%positive) state_112233_timed
         (World 5 1 true false {[1%positive := zeroed_device]} []).
Proof.
  apply (outcome_depends_on_trace_only (kernel_denying BLUE_LED_FILE)
           fn_set_light_notification None (Some 1%positive)
           state_112233_timed initial_world
           (World 5 1 true false {[1%positive := zeroed_device]} [])).
  reflexivity.
Defined.

(** X4. No operation allocates, frees or changes a device, none touches
    the one-shot guard, and the mutex is left released by the operations
    that take it and untouched by the others. *)
Theorem light_ops_keep_heap_and_guard K f dev s w :
  heap (call_set_light K f dev s w).2 = heap w
  /\ g_init (call_set_light K f dev s w).2 = g_init w
  /\ g_lock (call_set_light K f dev s w).2
     = (if takes_lock f then false else g_lock w).
Proof.
  destruct (op_run K f dev s w) as (e & aw & ->). by simpl.
Qed.

(** X5. Backlight and buttons take the mutex, make their write while
    holding it and release it. Battery, notification and attention never
    take the mutex: their writes are made without it. *)
Theorem lock_discipline_of_ops K f dev s w :
  (f = fn_set_light_backlight \/ f = fn_set_light_buttons ->
   lock_discipline false (events_of K f dev s w) = Some false)
  /\ (f = fn_set_light_battery \/ f = fn_set_light_notification
      \/ f = fn_set_light_attention ->
      Forall (fun e => is_lock_event e = false) (events_of K f dev s w)
      /\ lock_discipline false (events_of K f dev s w) = None).
Proof.
  rewrite op_events. split.
  - by intros [-> | ->].
  - intros [-> | [-> | ->]]; unfold op_trace; simpl;
      (split; [by repeat constructor | done]).
Qed.

Lemma lock_discipline_of_ops_witness :
  lock_discipline false
    (events_of kernel_ok fn_set_light_buttons None state_112233_timed
       initial_world) = Some false
  /\ lock_discipline false
       (events_of kernel_ok fn_set_light_battery None state_112233_timed
          initial_world) = None.
Proof.
  split.
  - apply (lock_discipline_of_ops kernel_ok fn_set_light_buttons None
             state_112233_timed initial_world).
    right. reflexivity.
  - apply (lock_discipline_of_ops kernel_ok fn_set_light_battery None
             state_112233_timed initial_world).
    left. reflexivity.
Defined.

(** ** Flash modes and colours *)

(** X6. Notification and attention blink only when the flash mode is
    TIMED or HARDWARE and both durations are positive. HARDWARE runs
    exactly as TIMED; any other mode, known or not, and any request with a
    zero or negative duration runs exactly as NONE with durations 0. *)
Theorem blink_needs_mode_and_positive_durations K f dev w C fm on off bm :
  f = fn_set_light_notification \/ f = fn_set_light_attention ->
  call_set_light K f dev (LightState C LIGHT_FLASH_HARDWARE on off bm) w
  = call_set_light K f dev (LightState C LIGHT_FLASH_TIMED on off bm) w
  /\ ((fm <> LIGHT_FLASH_TIMED /\ fm <> LIGHT_FLASH_HARDWARE)
      \/ on <= 0 \/ off <= 0 ->
      call_set_light K f dev (LightState C fm on off bm) w
      = call_set_light K f dev (LightState C LIGHT_FLASH_NONE 0 0 bm) w).
Proof.
  intros Hf. split.
  - by destruct Hf as [-> | ->].
  - intros Hc.
    assert (((fm =? LIGHT_FLASH_HARDWARE) || (fm =? LIGHT_FLASH_TIMED)) = false
            \/ ((0 <? on) && (0 <? off)) = false) as Hb.
    { destruct Hc as [[H1 H2] | [H | H]].
      - left. apply orb_false_iff. split; by apply Z.eqb_neq.
      - right. apply andb_false_iff. left. apply Z.ltb_ge. lia.
      - right. apply andb_false_iff. right. apply Z.ltb_ge. lia. }
    destruct Hf as [-> | ->]; simpl;
      unfold set_light_notification, set_light_attention; simpl.
    all: destruct ((fm =? LIGHT_FLASH_HARDWARE) || (fm =? LIGHT_FLASH_TIMED));
      [destruct ((0 <? on) && (0 <? off)); [by destruct Hb | done] | done].
Qed.

Lemma blink_needs_mode_and_positive_durations_witness :
  call_set_light kernel_ok fn_set_light_notification None
    (LightState 0x00112233 LIGHT_FLASH_TIMED 100 (-5) 0) initial_world
  = call_set_light kernel_ok fn_set_light_notification None
      (LightState 0x00112233 LIGHT_FLASH_NONE 0 0 0) initial_world.
Proof.
  apply (blink_needs_mode_and_positive_durations kernel_ok
           fn_set_light_notification None initial_world
           0x00112233 LIGHT_FLASH_TIMED 100 (-5) 0).
  - left. reflexivity.
  - right. right. lia.
Defined.

(** X7. Backlight, keyboard and buttons look at the low 24 bits of the
    colour and at nothing else of the light state: two states that agree on
    them run alike, whatever their flash mode, durations, brightness mode
    and alpha byte. *)
Theorem colour_only_operations K f dev s1 s2 w :
  f = fn_set_light_backlight \/ f = fn_set_light_keyboard
  \/ f = fn_set_light_buttons ->
  color s1 mod 2 ^ 24 = color s2 mod 2 ^ 24 ->
  call_set_light K f dev s1 w = call_set_light K f dev s2 w.
Proof.
  intros Hf Hc. destruct Hf as [-> | [-> | ->]]; simpl.
  - unfold set_light_backlight. rewrite !rgb_to_brightness_luma.
    rewrite <- (low24_channel (color s1) 16), <- (low24_channel (color s1) 8),
      <- (low24_channel (color s1) 0) by lia.
    rewrite Hc. by rewrite !low24_channel by lia.
  - done.
  - unfold set_light_buttons. rewrite !buttons_value. by rewrite Hc.
Qed.

Lemma colour_only_operations_witness :
  call_set_light kernel_ok fn_set_light_backlight None
    (LightState 0xFF112233 LIGHT_FLASH_TIMED 100 200 1) initial_world
  = call_set_light kernel_ok fn_set_light_backlight None
      (LightState 0x00112233 LIGHT_FLASH_NONE 0 0 0) initial_world.
Proof.
  apply (colour_only_operations kernel_ok fn_set_light_backlight None
           (LightState 0xFF112233 LIGHT_FLASH_TIMED 100 200 1)
           (LightState 0x00112233 LIGHT_FLASH_NONE 0 0 0) initial_world).
  - left. reflexivity.
  - reflexivity.
Defined.

Lemma channels_reassemble c :
  channel c 16 * 2 ^ 16 + channel c 8 * 2 ^ 8 + channel c 0 = c mod 2 ^ 24.
Proof.
  unfold channel.
  change (2 ^ 16) with 65536. change (2 ^ 8) with 256.
  change (2 ^ 0) with 1. change (2 ^ 24) with 16777216.
  Z.to_euclidean_division_equations. lia.
Qed.

(** X8. The three brightness values notification and attention write,
    first of all and in the order red, green, blue, are bytes, and together
    they are the low 24 bits of the colour: red * 2^16 + green * 2^8 + blue
    = colour mod 2^24. *)
Theorem rgb_writes_reassemble_colour K f dev s w :
  f = fn_set_light_notification \/ f = fn_set_light_attention ->
  exists r g b rest,
    writes_of (events_of K f dev s w)
    = (RED_LED_FILE, r) :: (GREEN_LED_FILE, g) :: (BLUE_LED_FILE, b) :: rest
    /\ 0 <= r <= 255 /\ 0 <= g <= 255 /\ 0 <= b <= 255
    /\ r * 2 ^ 16 + g * 2 ^ 8 + b = color s mod 2 ^ 24.
Proof.
  intros Hf.
  assert (writes_of (events_of K f dev s w)
          = planned_writes fn_set_light_notification s) as ->.
  { rewrite op_events. unfold op_trace.
    destruct Hf as [-> | ->]; apply writes_of_run_writes. }
  simpl. do 4 eexists. split; [reflexivity |].
  repeat split; try apply channel_bounds. apply channels_reassemble.
Qed.

Lemma rgb_writes_reassemble_colour_witness :
  exists r g b rest,
    writes_of (events_of kernel_ok fn_set_light_attention None
                 state_112233_timed initial_world)
    = (RED_LED_FILE, r) :: (GREEN_LED_FILE, g) :: (BLUE_LED_FILE, b) :: rest
    /\ 0 <= r <= 255 /\ 0 <= g <= 255 /\ 0 <= b <= 255
    /\ r * 2 ^ 16 + g * 2 ^ 8 + b = color state_112233_timed mod 2 ^ 24.
Proof.
  apply (rgb_writes_reassemble_colour kernel_ok fn_set_light_attention None
           state_112233_timed initial_world).
  right. reflexivity.
Defined.

Lemma grey_channel v lo :
  0 <= v <= 255 -> lo = 0 \/ lo = 8 \/ lo = 16 -> channel (grey v) lo = v.
Proof.
  intros Hv Hlo. unfold channel, grey.
  destruct Hlo as [-> | [-> | ->]].
  all: change (2 ^ 16) with 65536; change (2 ^ 8) with 256;
    change (2 ^ 0) with 1.
  all: Z.to_euclidean_division_equations; lia.
Qed.

(** X9. A grey colour keeps its level: when red, green and blue are all
    [v], a byte, [rgb_to_brightness] is [v], whatever the alpha byte; the
    three weights sum to 256. *)
Theorem rgb_to_brightness_grey v a fm on off bm :
  0 <= v <= 255 ->
  rgb_to_brightness (LightState (replace_alpha a (grey v)) fm on off bm) = v.
Proof.
  intros Hv. rewrite rgb_to_brightness_luma. simpl.
  rewrite !replace_alpha_channel by lia.
  rewrite !grey_channel by (done || auto).
  unfold luma. change (2 ^ 8) with 256.
  Z.to_euclidean_division_equations. lia.
Qed.

Lemma rgb_to_brightness_grey_witness :
  rgb_to_brightness
    (LightState (replace_alpha 0xFF (grey 128)) LIGHT_FLASH_NONE 0 0 0) = 128.
Proof.
  apply (rgb_to_brightness_grey 128 0xFF LIGHT_FLASH_NONE 0 0 0). lia.
Defined.

(** X10. [rgb_to_brightness] is monotone: raising any of the three
    channels never lowers the brightness. *)
Theorem rgb_to_brightness_monotone s1 s2 :
  channel (color s1) 16 <= channel (color s2) 16 ->
  channel (color s1) 8 <= channel (color s2) 8 ->
  channel (color s1) 0 <= channel (color s2) 0 ->
  rgb_to_brightness s1 <= rgb_to_brightness s2.
Proof.
  intros Hr Hg Hb. rewrite !rgb_to_brightness_luma. unfold luma.
  apply Z.div_le_mono; lia.
Qed.

Lemma rgb_to_brightness_monotone_witness :
  rgb_to_brightness (LightState 0x00102030 0 0 0 0)
  <= rgb_to_brightness (LightState 0x00112233 0 0 0 0).
Proof.
  apply (rgb_to_brightness_monotone (LightState 0x00102030 0 0 0 0)
           (LightState 0x00112233 0 0 0 0)); by vm_compute.
Defined.

(** X11. The backlight is switched fully off, brightness 0, exactly by
    the colours whose weighted sum is below 256; so a lit colour can still
    give brightness 0 (blue up to 8 alone, or red up to 3 alone), while any
    green of 2 or more, red of 4 or more or blue of 9 or more gives a
    brightness of at least 1. *)
Theorem rgb_to_brightness_zero s :
  (rgb_to_brightness s = 0
   <-> 77 * channel (color s) 16 + 150 * channel (color s) 8
       + 29 * channel (color s) 0 < 256)
  /\ (4 <= channel (color s) 16 \/ 2 <= channel (color s) 8
      \/ 9 <= channel (color s) 0 -> 1 <= rgb_to_brightness s).
Proof.
  rewrite rgb_to_brightness_luma. unfold luma. change (2 ^ 8) with 256.
  pose proof (channel_bounds (color s) 16).
  pose proof (channel_bounds (color s) 8).
  pose proof (channel_bounds (color s) 0).
  split; [split |]; intros; Z.to_euclidean_division_equations; lia.
Qed.

Lemma rgb_to_brightness_zero_witness :
  1 <= rgb_to_brightness (LightState 0x00000200 0 0 0 0)
  /\ rgb_to_brightness (LightState 0x00000008 0 0 0 0) = 0.
Proof.
  split.
  - apply (rgb_to_brightness_zero (LightState 0x00000200 0 0 0 0)).
    right. left. by vm_compute.
  - apply (rgb_to_brightness_zero (LightState 0x00000008 0 0 0 0)).
    by vm_compute.
Defined.

(** ** The life cycle of a device *)

Lemma open_lights_known TAG u m name f w :
  (name, f) ∈ light_table ->
  open_lights TAG u m name w = open_lights_bind TAG u m f w.
Proof.
  intros Hf. unfold light_table in Hf.
  repeat (apply elem_of_cons in Hf as [[= -> ->] | Hf]; [reflexivity |]).
  by apply elem_of_nil in Hf.
Qed.

(** X12. Opening a known light and closing the handle it gave succeeds
    twice over and leaves the heap, the trace and [errno] as they were:
    nothing is leaked and no control file is written. *)
Theorem open_then_close_restores TAG u m name f w :
  (name, f) ∈ light_table ->
  exists p w1 w2,
    open_lights TAG u m name w = ((0, Some p), w1)
    /\ close_lights (Some p) w1 = Some (0, w2)
    /\ heap w2 = heap w /\ log w2 = log w /\ errno w2 = errno w.
Proof.
  intros Hf. rewrite (open_lights_known _ _ _ _ _ _ Hf), open_lights_bind_run.
  do 3 eexists. split; [reflexivity |].
  unfold close_lights, free. simpl. rewrite lookup_insert_eq.
  split; [reflexivity |]. simpl. split; [| done].
  apply delete_insert_id, not_elem_of_dom, is_fresh.
Qed.

Lemma open_then_close_restores_witness :
  exists p w1 w2,
    open_lights 0 zeroed_device None "attention" initial_world
    = ((0, Some p), w1)
    /\ close_lights (Some p) w1 = Some (0, w2)
    /\ heap w2 = heap initial_world /\ log w2 = log initial_world
    /\ errno w2 = errno initial_world.
Proof.
  apply (open_then_close_restores 0 zeroed_device None "attention"
           fn_set_light_attention initial_world).
  compute_done.
Defined.

(** X13. A successful open builds a fully initialised device, whatever
    the fresh block held: device tag, version 0, the module it was given,
    [close_lights] as its close function and the operation of the table.
    Every device that was live stays as it was, and no control file is
    written. *)
Theorem open_initialises_device TAG u m name f w :
  (name, f) ∈ light_table ->
  exists p w1,
    open_lights TAG u m name w = ((0, Some p), w1)
    /\ heap w1 !! p
       = Some (LightDevice (HwDevice TAG 0 m (Some fn_close_lights)) (Some f))
    /\ (forall q d, heap w !! q = Some d -> heap w1 !! q = Some d)
    /\ log w1 = log w.
Proof.
  intros Hf. rewrite (open_lights_known _ _ _ _ _ _ Hf), open_lights_bind_run.
  do 2 eexists. split; [reflexivity |]. simpl.
  split; [apply lookup_insert_eq |]. split; [| done].
  intros q d Hq. rewrite lookup_insert_ne; [done |].
  intros <-. pose proof (is_fresh (dom (heap w))) as Hfresh.
  apply not_elem_of_dom in Hfresh. congruence.
Qed.

Lemma open_initialises_device_witness :
  exists p w1,
    open_lights 7 (LightDevice (HwDevice 9 9 (Some 3%positive) None)
                     (Some fn_set_light_keyboard))
      None "backlight" initial_world = ((0, Some p), w1)
    /\ heap w1 !! p
       = Some (LightDevice (HwDevice 7 0 None (Some fn_close_lights))
                 (Some fn_set_light_backlight))
    /\ (forall q d, heap initial_world !! q = Some d -> heap w1 !! q = Some d)
    /\ log w1 = log initial_world.
Proof.
  apply (open_initialises_device 7
           (LightDevice (HwDevice 9 9 (Some 3%positive) None)
              (Some fn_set_light_keyboard))
           None "backlight" fn_set_light_backlight initial_world).
  compute_done.
Defined.

(** X14. Two opens in a row give two different handles, both live
    afterwards, each bound to its own operation: a light can be opened
    while another (or the same) is open. *)
Theorem two_opens_two_handles TAG u m n1 f1 n2 f2 w :
  (n1, f1) ∈ light_table -> (n2, f2) ∈ light_table ->
  exists p1 w1 p2 w2 d1 d2,
    open_lights TAG u m n1 w = ((0, Some p1), w1)
    /\ open_lights TAG u m n2 w1 = ((0, Some p2), w2)
    /\ p1 <> p2
    /\ heap w2 !! p1 = Some d1 /\ set_light d1 = Some f1
    /\ heap w2 !! p2 = Some d2 /\ set_light d2 = Some f2.
Proof.
  intros H1 H2.
  rewrite (open_lights_known _ _ _ _ _ _ H1), open_lights_bind_run.
  do 2 eexists.
  rewrite (open_lights_known _ _ _ _ _ _ H2), open_lights_bind_run. simpl.
  do 4 eexists. split; [reflexivity |]. split; [reflexivity |]. simpl.
  set (p1 := fresh (dom (heap w))).
  set (h1 := <[p1 := _]> (heap w)).
  assert (p1 <> fresh (dom h1)) as Hne.
  { intros E. pose proof (is_fresh (dom h1)) as Hfresh.
    rewrite <- E in Hfresh. apply Hfresh.
    apply elem_of_dom. unfold h1. rewrite lookup_insert_eq. by eexists. }
  split; [done |].
  rewrite lookup_insert_ne by done. unfold h1.
  rewrite !lookup_insert_eq. by repeat split.
Qed.

Lemma two_opens_two_handles_witness :
  exists p1 w1 p2 w2 d1 d2,
    open_lights 0 zeroed_device None "battery" initial_world
    = ((0, Some p1), w1)
    /\ open_lights 0 zeroed_device None "battery" w1 = ((0, Some p2), w2)
    /\ p1 <> p2
    /\ heap w2 !! p1 = Some d1 /\ set_light d1 = Some fn_set_light_battery
    /\ heap w2 !! p2 = Some d2 /\ set_light d2 = Some fn_set_light_battery.
Proof.
  apply (two_opens_two_handles 0 zeroed_device None
           "battery" fn_set_light_battery "battery" fn_set_light_battery
           initial_world); compute_done.
Defined.

(** X15. The mutex is initialised by the first successful open only:
    after any successful open the one-shot guard is set, and an open that
    finds it set leaves the mutex exactly as it is. *)
Theorem mutex_initialised_once TAG u m name f w :
  (name, f) ∈ light_table ->
  g_init (open_lights TAG u m name w).2 = true
  /\ g_lock (open_lights TAG u m name w).2
     = (if g_init w then g_lock w else false).
Proof.
  intros Hf. by rewrite (open_lights_known _ _ _ _ _ _ Hf), open_lights_bind_run.
Qed.

Lemma mutex_initialised_once_witness :
  g_init (open_lights 0 zeroed_device None "keyboard"
            (World 0 0 true true ∅ [])).2 = true
  /\ g_lock (open_lights 0 zeroed_device None "keyboard"
               (World 0 0 true true ∅ [])).2 = true.
Proof.
  apply (mutex_initialised_once 0 zeroed_device None "keyboard"
           fn_set_light_keyboard (World 0 0 true true ∅ [])).
  compute_done.
Defined.

(** X16. Closing a live handle frees that device and no other, and
    writes no control file; the handle is dead afterwards, so closing it a
    second time is a double free (undefined). *)
Theorem close_frees_only_its_device w p d :
  heap w !! p = Some d ->
  exists w',
    close_lights (Some p) w = Some (0, w')
    /\ heap w' !! p = None
    /\ (forall q, q <> p -> heap w' !! q = heap w !! q)
    /\ log w' = log w
    /\ close_lights (Some p) w' = None.
Proof.
  intros Hp. unfold close_lights, free. rewrite Hp. eexists.
  split; [reflexivity |]. simpl. rewrite lookup_delete_eq.
  split; [done |]. split; [| done].
  intros q Hq. by apply lookup_delete_ne.
Qed.

Lemma close_frees_only_its_device_witness :
  exists w',
    close_lights (Some 1%positive)
      (World 0 0 true false {[1%positive := zeroed_device]} [])
    = Some (0, w')
    /\ heap w' !! 1%positive = None
    /\ (forall q, q <> 1%positive ->
        heap w' !! q
        = heap (World 0 0 true false {[1%positive := zeroed_device]} []) !! q)
    /\ log w' = []
    /\ close_lights (Some 1%positive) w' = None.
Proof.
  apply (close_frees_only_its_device
           (World 0 0 true false {[1%positive := zeroed_device]} [])
           1%positive zeroed_device).
  reflexivity.
Defined.

(** ** The status, from the kernel's answers *)

Lemma statuses_of_app sel l1 l2 :
  statuses_of sel (l1 ++ l2) = statuses_of sel l1 ++ statuses_of sel l2.
Proof.
  induction l1 as [| [| | p v r] l1 IH]; simpl; [done | done | done |].
  destruct (sel p); simpl; by rewrite IH.
Qed.

Lemma statuses_of_run_writes (P : Z -> Prop) K sel ws l :
  (forall l p v, P (write_status K l p v)) ->
  Forall P (statuses_of sel (run_writes K l ws)).
Proof.
  intros HP. revert l.
  induction ws as [| [p v] ws IH]; intros l; simpl; [constructor |].
  destruct (sel p); [constructor |]; auto.
Qed.

Lemma op_status_all (P : Z -> Prop) K f dev s w :
  P 0 -> (forall l p v, P (write_status K l p v)) ->
  P (status_of K f dev s w).
Proof.
  intros H0 HP. rewrite op_status.
  destruct (last _) as [r |] eqn:El; simpl; [| done].
  apply last_Some_elem_of in El.
  assert (Forall P (statuses_of is_brightness_file (op_trace K f s (log w))))
    as Hall.
  { unfold op_trace. destruct (takes_lock f); simpl.
    - rewrite statuses_of_app. apply Forall_app. split; [| constructor].
      by apply statuses_of_run_writes.
    - by apply statuses_of_run_writes. }
  rewrite Forall_forall in Hall. by apply Hall.
Qed.

Lemma neg_errno e : errno_ok e -> neg e = - e.
Proof.
  unfold errno_ok. intros He. unfold neg. apply to_int_small.
  unfold in_int. lia.
Qed.

Lemma kernel_denying_errnos p : kernel_errnos_positive (kernel_denying p).
Proof.
  unfold kernel_errnos_positive. simpl. split; [| split]; [| done | done].
  intros l q e. destruct (String.eqb q _); [| done].
  intros [= <-]. by vm_compute.
Qed.

(** X17. On a kernel whose failures carry a positive [errno], every
    operation returns 0 or a negative [int], never a positive value. *)
Theorem status_never_positive K f dev s w :
  kernel_errnos_positive K ->
  - 2 ^ 31 < status_of K f dev s w <= 0.
Proof.
  intros (Ho & Hw & Hc).
  apply (op_status_all (fun r => - 2 ^ 31 < r <= 0)); [lia |].
  intros l p v. unfold write_status.
  destruct (k_open K l p) as [fd | e] eqn:Eo.
  - destruct (k_write _ _ _ _ _) as [n | ew] eqn:Ew; [lia |].
    destruct (k_close _ _ _) as [c | ec] eqn:Ec.
    + apply Hw in Ew. rewrite neg_errno by done. unfold errno_ok in Ew. lia.
    + apply Hc in Ec. rewrite neg_errno by done. unfold errno_ok in Ec. lia.
  - apply Ho in Eo. rewrite neg_errno by done. unfold errno_ok in Eo. lia.
Qed.

Lemma status_never_positive_witness :
  - 2 ^ 31
  < status_of (kernel_denying BLUE_LED_FILE) fn_set_light_attention None
      state_112233_timed initial_world
  <= 0.
Proof.
  apply (status_never_positive (kernel_denying BLUE_LED_FILE)
           fn_set_light_attention None state_112233_timed initial_world).
  unfold kernel_errnos_positive. simpl. split; [| split]; [| done | done].
  intros l q e. destruct (String.eqb q _); [| done].
  intros [= <-]. by vm_compute.
Defined.

(** X18. On a kernel where no [open] and no [write] fails, every
    operation returns 0, in every state and from every world. *)
Theorem all_accepted_gives_zero K f dev s w :
  kernel_accepts K -> status_of K f dev s w = 0.
Proof.
  intros [Ho Hw]. apply (op_status_all (fun r => r = 0)); [done |].
  intros l p v. unfold write_status.
  destruct (Ho l p) as [fd ->].
  by destruct (Hw l (Z.of_nat fd) (sprintf_d_nl v)
                 (Z.of_nat (String.length (sprintf_d_nl v)))) as [n ->].
Qed.

Lemma all_accepted_gives_zero_witness :
  status_of kernel_ok fn_set_light_notification None state_112233_timed
    initial_world = 0.
Proof.
  apply (all_accepted_gives_zero kernel_ok fn_set_light_notification None
           state_112233_timed initial_world).
  split; simpl; eauto.
Defined.

Lemma write_status_denied K l p v e :
  errno_ok e -> k_open K l p = SysErr e -> write_status K l p v = - e.
Proof.
  intros He Ho. unfold write_status. rewrite Ho. by apply neg_errno.
Qed.

(** X19. A control file that cannot be opened is reported by the
    operation that owns it as minus the [errno] of [open]: the backlight
    file by backlight, the keyboard-backlight file by buttons, the
    charging-LED file by battery, and the blue brightness file by
    notification and attention. *)
Theorem denied_file_is_reported K dev s w e :
  errno_ok e ->
  ((forall l, k_open K l LCD_FILE = SysErr e) ->
   status_of K fn_set_light_backlight dev s w = - e)
  /\ ((forall l, k_open K l KEYBOARD_FILE = SysErr e) ->
      status_of K fn_set_light_buttons dev s w = - e)
  /\ ((forall l, k_open K l CHARGING_LED_FILE = SysErr e) ->
      status_of K fn_set_light_battery dev s w = - e)
  /\ ((forall l, k_open K l BLUE_LED_FILE = SysErr e) ->
      status_of K fn_set_light_notification dev s w = - e
      /\ status_of K fn_set_light_attention dev s w = - e).
Proof.
  intros He. rewrite !op_status. unfold op_trace. simpl.
  split; [| split; [| split]]; intros Ho; [| | | split].
  all: by apply write_status_denied.
Qed.

Lemma denied_file_is_reported_witness :
  status_of (kernel_denying LCD_FILE) fn_set_light_backlight None
    state_112233_timed initial_world = - EACCES.
Proof.
  apply (denied_file_is_reported (kernel_denying LCD_FILE) None
           state_112233_timed initial_world EACCES).
  - by vm_compute.
  - intros l. reflexivity.
Defined.

(** ** The text written *)

Lemma string_length_app (a b : string) :
  String.length (a +:+ b) = (String.length a + String.length b)%nat.
Proof. induction a as [| c a IH]; simpl; [done |]. by rewrite IH. Qed.

Lemma pretty_N_go_length (k : nat) :
  forall (x : N) (s : string),
    (x < 10 ^ N.of_nat k)%N ->
    (String.length (pretty_N_go x s) <= String.length s + k)%nat.
Proof.
  induction k as [| k IH]; intros x s Hx.
  - assert (x = 0%N) as -> by (simpl in Hx; lia).
    rewrite pretty_N_go_0. lia.
  - destruct (decide (x = 0%N)) as [-> | Hne].
    + rewrite pretty_N_go_0. lia.
    + rewrite pretty_N_go_step by lia.
      etrans; [apply IH |]; [| simpl; lia].
      apply N.Div0.div_lt_upper_bound.
      by rewrite Nat2N.inj_succ, N.pow_succ_r' in Hx.
Qed.

Lemma pretty_N_length (x : N) :
  (x < 10 ^ 10)%N -> (String.length (pretty x) <= 10)%nat.
Proof.
  intros Hx. unfold pretty, pretty_N. case_decide; [simpl; lia |].
  by apply (pretty_N_go_length 10 x "").
Qed.

(** X20. For every [int] value the text [write_int] formats, sign, digits
    and newline, is at most 12 characters long, so with its terminating NUL
    it fits the 20-byte buffer, and the count passed to [write] is at most
    12. *)
Theorem sprintf_fits_buffer v :
  in_int v ->
  (String.length (sprintf_d_nl v) <= 12)%nat
  /\ (String.length (sprintf_d_nl v) + 1 <= 20)%nat.
Proof.
  unfold in_int. intros Hv.
  assert (String.length (pretty v) <= 11)%nat as Hlen.
  { unfold pretty, pretty_Z. destruct v as [| p | p].
    - simpl. lia.
    - unfold pretty, pretty_positive.
      etrans; [apply pretty_N_length |]; lia.
    - rewrite string_length_app. simpl.
      unfold pretty, pretty_positive.
      apply le_n_S. apply pretty_N_length. lia. }
  unfold sprintf_d_nl. rewrite string_length_app. simpl. lia.
Qed.

Lemma sprintf_fits_buffer_witness :
  (String.length (sprintf_d_nl (- 2 ^ 31)) <= 12)%nat
  /\ (String.length (sprintf_d_nl (- 2 ^ 31)) + 1 <= 20)%nat.
Proof.
  apply (sprintf_fits_buffer (- 2 ^ 31)). unfold in_int. lia.
Defined.

(** ** One request after another *)




